(** * Merchant acceptance and double-spend detection (Task3/tempCodeRunnerFile.js)

    A shallow embedding of [parseCoin], [acceptCoin] and [determineCheater].

    Conventions.
    - A JavaScript string is a [string]: the bytes of its UTF-8 encoding.
      Equality, concatenation, [split] on an ASCII separator and
      [startsWith] agree with the JavaScript operations on well-formed
      strings under that reading.
    - A value that may be [undefined] (an array read past the end, a
      destructured field that is missing) is an [option string], [None]
      standing for [undefined].
    - A [Buffer] is the list of its octets.
    - A thrown exception ends the run: [Throw (Error msg)] for
      [throw new Error(msg)], [Throw TypeError] for the run-time TypeError
      of a method call on [undefined].
    - Calls to collaborators (signature verification, the random source, the
      coin's [getRis], [console.log]) are recorded, in program order, in a
      trace of events. *)

From Stdlib Require Import String Ascii List Bool Arith NArith ZArith Lia.
Import ListNotations.
Local Open Scope string_scope.
Local Open Scope list_scope.

(** ** Exceptions and the trace of calls *)

Inductive exn : Type :=
| Error (message : string)
| TypeError.

Inductive result (A : Type) : Type :=
| Return (a : A)
| Throw (e : exn).
Arguments Return {A} a.
Arguments Throw {A} e.

Inductive event : Type :=
| Verify (valid : bool)               (* blindSignatures.verify({...}) answered [valid] *)
| ParseCoin (s : string)              (* parseCoin(s) was called *)
| Random (isLeft : bool)              (* Math.random() < 0.5 evaluated to [isLeft] *)
| GetRis (isLeft : bool) (i : nat)    (* coin.getRis(isLeft, i) was called *)
| Log (line : string).                (* console.log(line) *)

Definition Eff (A : Type) : Type := (list event * result A)%type.

Definition ret {A} (a : A) : Eff A := ([], Return a).
Definition throw {A} (e : exn) : Eff A := ([], Throw e).
Definition emit (ev : event) : Eff unit := ([ev], Return tt).
Definition lift {A} (r : result A) : Eff A := ([], r).

(** A call to a collaborator: recorded, and answered with [a]. *)
Definition call {A} (ev : event) (a : A) : Eff A := ([ev], Return a).

Definition bind {A B} (m : Eff A) (k : A -> Eff B) : Eff B :=
  match m with
  | (t, Return a) => let (t', r) := k a in (t ++ t', r)
  | (t, Throw e) => (t, Throw e)
  end.

Definition rbind {A B} (m : result A) (k : A -> result B) : result B :=
  match m with
  | Return a => k a
  | Throw e => Throw e
  end.

Declare Scope eff_scope.
Delimit Scope eff_scope with eff.
Notation "x <- m ;; k" := (bind m (fun x => k))
  (at level 61, m at next level, right associativity) : eff_scope.
Notation "m ;; k" := (bind m (fun _ => k))
  (at level 61, right associativity) : eff_scope.
Notation "x <-- m ;; k" := (rbind m (fun x => k))
  (at level 61, m at next level, right associativity).

(** ** The JavaScript and Node built-ins the file calls *)

Module Js.

(** [a !== b] on values that are strings or [undefined]. *)
Definition strict_neq (a b : option string) : bool :=
  match a, b with
  | Some x, Some y => negb (x =? y)
  | None, None => false
  | _, _ => true
  end.

(** A value inside a template literal. *)
Definition show (v : option string) : string :=
  match v with
  | Some s => s
  | None => "undefined"
  end.

(** [s.split(sep)] for a one-character separator: the pieces between
    the separators, always at least one. *)
Fixpoint split (sep : ascii) (s : string) : list string :=
  match s with
  | EmptyString => [EmptyString]
  | String c rest =>
      if (c =? sep)%char then EmptyString :: split sep rest
      else match split sep rest with
           | piece :: pieces => String c piece :: pieces
           | [] => [String c EmptyString]
           end
  end.

(** [v.split(sep)] where [v] may be [undefined]. *)
Definition split_of (v : option string) (sep : ascii) : result (list string) :=
  match v with
  | Some s => Return (split sep s)
  | None => Throw TypeError
  end.

(** [s.startsWith(p)]. *)
Definition startsWith (s p : string) : bool := String.prefix p s.

(** [xs.join(sep)]. *)
Definition join (sep : string) (xs : list string) : string := String.concat sep xs.

(** Number of occurrences of a character. *)
Fixpoint occurrences (c : ascii) (s : string) : nat :=
  match s with
  | EmptyString => 0
  | String d rest => (if (d =? c)%char then 1 else 0) + occurrences c rest
  end.

Definition Buffer : Type := list N.

(** Value of a hexadecimal digit. *)
Definition unhex (c : ascii) : option N :=
  let k := N_of_ascii c in
  if (48 <=? k)%N && (k <=? 57)%N then Some (k - 48)%N
  else if (65 <=? k)%N && (k <=? 70)%N then Some (k - 55)%N
  else if (97 <=? k)%N && (k <=? 102)%N then Some (k - 87)%N
  else None.

(** Node's hex decoding: pairs of digits from the left, stopping at the
    first pair that is not two hexadecimal digits; a trailing single
    character is dropped.  (An octet of a character outside ASCII is no
    digit, so the decoding stops there as it does in JavaScript.) *)
Fixpoint hexDecode (s : string) : Buffer :=
  match s with
  | String a (String b rest) =>
      match unhex a, unhex b with
      | Some hi, Some lo => (16 * hi + lo)%N :: hexDecode rest
      | _, _ => []
      end
  | _ => []
  end.

(** [Buffer.from(v, 'hex')]: a TypeError when [v] is [undefined]. *)
Definition Buffer_from_hex (v : option string) : result Buffer :=
  match v with
  | Some s => Return (hexDecode s)
  | None => Throw TypeError
  end.

(** UTF-8 decoding as [buf.toString()] does it: every maximal ill-formed
    part becomes U+FFFD.  [pending] is the state inside a multi-byte
    sequence: the octets read so far, how many continuation octets are
    still needed, and the range allowed for the next one. *)
Record pending : Type :=
  { seen : list N; needed : nat; lower : N; upper : N }.

Definition replacement : list N := [239; 191; 189]%N.

Definition between (lo b hi : N) : bool := (lo <=? b)%N && (b <=? hi)%N.

Definition lead (b : N) : option pending :=
  if between 194 b 223 then
    Some {| seen := [b]; needed := 1; lower := 128; upper := 191 |}
  else if between 224 b 239 then
    Some {| seen := [b]; needed := 2;
            lower := if (b =? 224)%N then 160%N else 128%N;
            upper := if (b =? 237)%N then 159%N else 191%N |}
  else if between 240 b 244 then
    Some {| seen := [b]; needed := 3;
            lower := if (b =? 240)%N then 144%N else 128%N;
            upper := if (b =? 244)%N then 143%N else 191%N |}
  else None.

(** One octet read outside a sequence. *)
Definition fresh (b : N) : list N * option pending :=
  if (b <? 128)%N then ([b], None)
  else match lead b with
       | Some p => ([], Some p)
       | None => (replacement, None)
       end.

Definition step (st : option pending) (b : N) : list N * option pending :=
  match st with
  | None => fresh b
  | Some p =>
      if between (lower p) b (upper p) then
        match needed p with
        | S (S k) =>
            ([], Some {| seen := seen p ++ [b]; needed := S k;
                         lower := 128; upper := 191 |})
        | _ => (seen p ++ [b], None)
        end
      else let (out, st') := fresh b in (replacement ++ out, st')
  end.

Fixpoint utf8 (st : option pending) (buf : Buffer) : list N :=
  match buf with
  | [] => match st with
          | None => []
          | Some _ => replacement
          end
  | b :: rest => let (out, st') := step st b in out ++ utf8 st' rest
  end.

(** [buf.toString()]. *)
Definition Buffer_toString (buf : Buffer) : string :=
  string_of_list_ascii (map ascii_of_N (utf8 None buf)).

End Js.

(** ** The coin object handed to the merchant

    [coin.js] is not part of the sources; [acceptCoin] uses of a coin only
    the fields and methods below.  [toString] is the canonical coin string,
    [getRis isLeft i] the share (a hexadecimal string) disclosed for side
    [isLeft] at index [i]. *)

Module Coin.
Record t : Type :=
  { signature : Z;
    n : Z;
    e : Z;
    guid : string;
    toString : string;
    getRis : bool -> nat -> string }.
End Coin.

(** ** What the sources do not contain *)

(** Modelled from the spec: [utils.xorBuffers] ([utils.js] is not part of
    the sources).  "recovered = ris1[i] XOR ris2[i]": the exclusive-or of
    two byte strings, octet by octet.  The spec only combines shares of
    equal length; on unequal lengths this model stops with the shorter. *)
Fixpoint xorBuffers_spec (a b : Js.Buffer) : Js.Buffer :=
  match a, b with
  | x :: a', y :: b' => N.lxor x y :: xorBuffers_spec a' b'
  | _, _ => []
  end.

Module Codec.

(** The public data of a coin that the canonical string carries. *)
Record coin_data : Type :=
  { amount : string;
    guid : string;
    hashLeft : list string;
    hashRight : list string }.

(** Modelled from the spec: [encode] of the Coin Codec (the coin's
    [toString], in [coin.js], is not part of the sources).  "joins bank
    tag, amount, guid, and the two hash lists with a fixed delimiter;
    fails (MalformedCoinError) if amount or guid contain the delimiter";
    the string is
    [<BANK_TAG>-<amount>-<guid>-<hashLeft_0>,...-<hashRight_0>,...].
    [None] stands for the MalformedCoinError. *)
Definition encode (bank_tag : string) (c : coin_data) : option string :=
  if (0 <? Js.occurrences "-" (amount c))%nat || (0 <? Js.occurrences "-" (guid c))%nat
  then None
  else Some (bank_tag ++ "-" ++ amount c ++ "-" ++ guid c ++ "-"
             ++ Js.join "," (hashLeft c) ++ "-" ++ Js.join "," (hashRight c))%string.

(** A hexadecimal string, as the spec requires of hash values. *)
Definition is_hex (s : string) : Prop :=
  Forall (fun c => Js.unhex c <> None) (list_ascii_of_string s).

End Codec.

(** Closes the goal that the strings of a literal list are hexadecimal. *)
Ltac hex_strings :=
  repeat constructor; intros H; vm_compute in H; discriminate H.

(** ** Data for the examples *)

(** A stand-in for the hash function in the examples. *)
Definition example_hash (s : string) : string := ("5a" ++ s)%string.

(** A stand-in for signature verification: the signature 1 is the valid one. *)
Definition example_verify (sig : Z) (_ : string) (_ _ : Z) : bool := Z.eqb sig 1.

(** Two shares per index whose exclusive-or is the text [IDENT:al]. *)
Definition example_left : list string := ["0102030405060708"; "1111111111111111"].
Definition example_right : list string := ["4846464a513c6664"; "5855545f452b707d"].

Definition example_data : Codec.coin_data :=
  {| Codec.amount := "20";
     Codec.guid := "g1";
     Codec.hashLeft := map example_hash example_left;
     Codec.hashRight := map example_hash example_right |}.

Definition example_string : string :=
  "BANK-20-g1-5a0102030405060708,5a1111111111111111-5a4846464a513c6664,5a5855545f452b707d".

Definition example_getRis (isLeft : bool) (i : nat) : string :=
  nth i (if isLeft then example_left else example_right) "".

Definition example_coin : Coin.t :=
  {| Coin.signature := 1%Z; Coin.n := 0%Z; Coin.e := 0%Z; Coin.guid := "g1";
     Coin.toString := example_string;
     Coin.getRis := example_getRis |}.

(** The same coin with a signature that does not verify. *)
Definition unsigned_coin : Coin.t :=
  {| Coin.signature := 0%Z; Coin.n := 0%Z; Coin.e := 0%Z; Coin.guid := "g1";
     Coin.toString := example_string;
     Coin.getRis := example_getRis |}.

(** The same coin disclosing a wrong right share at index 1. *)
Definition forged_coin : Coin.t :=
  {| Coin.signature := 1%Z; Coin.n := 0%Z; Coin.e := 0%Z; Coin.guid := "g1";
     Coin.toString := example_string;
     Coin.getRis := fun isLeft i =>
       if negb isLeft && (i =? 1)%nat then "ffffffffffffffff" else example_getRis isLeft i |}.

(** The random bits of a merchant who asks for the left share at index 0
    and for the right share afterwards. *)
Definition example_bits (i : nat) : bool := (i =? 0)%nat.

(** The transcript those bits produce on the example coin. *)
Definition example_mixed : list string := ["0102030405060708"; "5855545f452b707d"].

(** A transcript with one entry more than [example_left]. *)
Definition example_longer : list string :=
  ["0102030405060708"; "1111111111111111"; "2222222222222222"].

(** Transcripts whose exclusive-or at index 1 is the text [IDENTITY]. *)
Definition lookalike_1 : list string := ["0102030405060708"; "4944454e54495459"].
Definition lookalike_2 : list string := ["0102030405060708"; "0000000000000000"].

(** Transcripts whose exclusive-or at index 0 is the text [IDENT:a:b]. *)
Definition colon_1 : list string := ["4944454e543a613a62"; "1111111111111111"].
Definition colon_2 : list string := ["000000000000000000"; "1111111111111111"].

(** The random bits of a merchant who always asks for the left share. *)
Definition left_bits (_ : nat) : bool := true.

(** A transcript that stops after one entry. *)
Definition example_short : list string := ["0102030405060708"].

(** A signed coin whose string carries one commitment per side only. *)
Definition short_coin : Coin.t :=
  {| Coin.signature := 1%Z; Coin.n := 0%Z; Coin.e := 0%Z; Coin.guid := "g1";
     Coin.toString := "BANK-20-g1-5a0102030405060708-5a4846464a513c6664";
     Coin.getRis := example_getRis |}.

(** A signed coin whose string starts with another tag. *)
Definition foreign_coin : Coin.t :=
  {| Coin.signature := 1%Z; Coin.n := 0%Z; Coin.e := 0%Z; Coin.guid := "g1";
     Coin.toString := "COIN-20-g1-5a0102030405060708-5a4846464a513c6664";
     Coin.getRis := example_getRis |}.

(** ** The program *)

(** The lines [determineCheater] prints; the first and the second are
    template literals. *)
Definition analyzing_line (guid : string) : string :=
  ("Analyzing coin " ++ guid ++ " for double-spending...")%string.
Definition buyer_line (trueId : option string) : string :=
  ("Double-spending detected! The cheater is the buyer: " ++ Js.show trueId)%string.
Definition merchant_line : string :=
  "Double-spending detected! One of the merchants is cheating.".
Definition identical_line : string :=
  "Both RIS strings are identical. The merchant is trying to cheat.".

Section Merchant.

(** Constants exported by [coin.js]. *)
Variable COIN_RIS_LENGTH : nat.
Variable IDENT_STR : string.
Variable BANK_STR : string.

(** [utils.hash] and [utils.xorBuffers] ([utils.js]). *)
Variable hash : string -> string.
Variable xorBuffers : Js.Buffer -> Js.Buffer -> Js.Buffer.

(** [blindSignatures.verify({unblinded, message, N, E})]. *)
Variable verify : Z -> string -> Z -> Z -> bool.

(** [parseCoin(s)].  The fields are read by destructuring the array
    [s.split('-')]; the message of the error is the template literal
    [Invalid identity string: ${cnst} received, but ${BANK_STR} expected]. *)
Definition parseCoin (s : string) : result (list string * list string) :=
  let fields := Js.split "-" s in
  let cnst := nth_error fields 0 in
  let leftHashes := nth_error fields 3 in
  let rightHashes := nth_error fields 4 in
  if Js.strict_neq cnst (Some BANK_STR) then
    Throw (Error ("Invalid identity string: " ++ Js.show cnst
                  ++ " received, but " ++ BANK_STR ++ " expected"))
  else
    lh <-- Js.split_of leftHashes "," ;;
    rh <-- Js.split_of rightHashes "," ;;
    Return (lh, rh).

(** The loop of [acceptCoin], [count] iterations from index [i] on, [ris]
    being the array filled so far.  [bits i] is what the test
    [Math.random() < 0.5] gives in iteration [i]. *)
Fixpoint gatherRis (coin : Coin.t) (bits : nat -> bool)
    (leftHashes rightHashes : list string)
    (count i : nat) (ris : list string) : Eff (list string) :=
  match count with
  | 0 => ret ris
  | S count' =>
      (isLeft <- call (Random (bits i)) (bits i) ;;
       value <- call (GetRis isLeft i) (Coin.getRis coin isLeft i) ;;
       let hashed := hash value in
       let expected :=
         if isLeft then nth_error leftHashes i else nth_error rightHashes i in
       if Js.strict_neq (Some hashed) expected then
         throw (Error "RIS hash mismatch – Coin may be forged!")
       else
         gatherRis coin bits leftHashes rightHashes count' (S i) (ris ++ [value]))%eff
  end.

(** [acceptCoin(coin)]. *)
Definition acceptCoin (coin : Coin.t) (bits : nat -> bool) : Eff (list string) :=
  (valid <- call (Verify (verify (Coin.signature coin) (Coin.toString coin)
                                 (Coin.n coin) (Coin.e coin)))
                 (verify (Coin.signature coin) (Coin.toString coin)
                         (Coin.n coin) (Coin.e coin)) ;;
   if negb valid then throw (Error "Invalid signature!")
   else
     emit (ParseCoin (Coin.toString coin)) ;;
     hashes <- lift (parseCoin (Coin.toString coin)) ;;
     let (leftHashes, rightHashes) := hashes : list string * list string in
     gatherRis coin bits leftHashes rightHashes COIN_RIS_LENGTH 0 [])%eff.

(** The loop of [determineCheater], [count] iterations from index [i] on;
    the line after the loop is printed when no iteration returned. *)
Fixpoint scan (ris1 ris2 : list string) (count i : nat) : Eff unit :=
  match count with
  | 0 => emit (Log identical_line)
  | S count' =>
      if Js.strict_neq (nth_error ris1 i) (nth_error ris2 i) then
        (id1 <- lift (Js.Buffer_from_hex (nth_error ris1 i)) ;;
         id2 <- lift (Js.Buffer_from_hex (nth_error ris2 i)) ;;
         let xor := Js.Buffer_toString (xorBuffers id1 id2) in
         if Js.startsWith xor IDENT_STR then
           let trueId := nth_error (Js.split ":" xor) 1 in
           emit (Log (buyer_line trueId))
         else
           emit (Log merchant_line))%eff
      else scan ris1 ris2 count' (S i)
  end.

(** [determineCheater(guid, ris1, ris2)]. *)
Definition determineCheater (guid : string) (ris1 ris2 : list string) : Eff unit :=
  (emit (Log (analyzing_line guid)) ;;
   scan ris1 ris2 COIN_RIS_LENGTH 0)%eff.

(** The script at the end of the file, from the first spend on: two
    merchants accept the same coin, then the bank compares the two
    transcripts and, last, the first transcript with itself.  [coin] is the
    coin as the lines before leave it (built, signed and unblinded);
    [bits1] and [bits2] are the random bits of the two spends. *)
Definition main (coin : Coin.t) (bits1 bits2 : nat -> bool) : Eff unit :=
  (ris1 <- acceptCoin coin bits1 ;;
   ris2 <- acceptCoin coin bits2 ;;
   determineCheater (Coin.guid coin) ris1 ris2 ;;
   determineCheater (Coin.guid coin) ris1 ris1)%eff.

(** *** Notions used to state the properties *)

(** The calls of iterations [i .. i+count-1] of the loop of [acceptCoin]:
    one random draw and one request to the coin per index. *)
Definition challenges (bits : nat -> bool) (i count : nat) : list event :=
  flat_map (fun j => [Random (bits j); GetRis (bits j) j]) (seq i count).

(** A valid coin in the sense of the spec: no delimiter in amount and guid,
    [COIN_RIS_LENGTH] hexadecimal hash values on each side. *)
Definition valid_coin (c : Codec.coin_data) : Prop :=
  Js.occurrences "-" (Codec.amount c) = 0 /\
  Js.occurrences "-" (Codec.guid c) = 0 /\
  length (Codec.hashLeft c) = COIN_RIS_LENGTH /\
  length (Codec.hashRight c) = COIN_RIS_LENGTH /\
  Forall Codec.is_hex (Codec.hashLeft c) /\
  Forall Codec.is_hex (Codec.hashRight c).

(** One of the three verdicts of the detector. *)
Definition is_verdict (line : string) : Prop :=
  line = identical_line \/ line = merchant_line \/
  exists trueId, line = buyer_line trueId.

(** *** Facts about the built-ins *)

Lemma strict_neq_true (a b : option string) :
  Js.strict_neq a b = true <-> a <> b.
Proof.
  destruct a as [x|], b as [y|]; simpl; split; try congruence; try discriminate.
  - intros H E. injection E as ->. rewrite String.eqb_refl in H. discriminate.
  - intros H. destruct (String.eqb_spec x y) as [->|]; [congruence | reflexivity].
Qed.

Lemma strict_neq_false (a b : option string) :
  Js.strict_neq a b = false <-> a = b.
Proof.
  destruct (Js.strict_neq a b) eqn:E.
  - apply strict_neq_true in E. split; [discriminate | contradiction].
  - split; [intros _ | reflexivity].
    destruct a as [x|], b as [y|]; simpl in E; try discriminate; try reflexivity.
    destruct (String.eqb_spec x y) as [->|]; [reflexivity | discriminate].
Qed.

Lemma split_first (sep : ascii) (s : string) :
  exists piece pieces, Js.split sep s = piece :: pieces.
Proof.
  induction s as [|c rest [piece [pieces IH]]]; simpl.
  - eauto.
  - destruct (c =? sep)%char; [eauto|]. rewrite IH. eauto.
Qed.

Lemma split_length (sep : ascii) (s : string) :
  length (Js.split sep s) = S (Js.occurrences sep s).
Proof.
  induction s as [|c rest IH]; simpl; [reflexivity|].
  destruct (c =? sep)%char; simpl.
  - now rewrite IH.
  - destruct (Js.split sep rest); simpl in *; [discriminate | exact IH].
Qed.

Lemma split_without_sep (sep : ascii) (s : string) :
  Js.occurrences sep s = 0 -> Js.split sep s = [s].
Proof.
  induction s as [|c rest IH]; simpl; [reflexivity|].
  destruct (c =? sep)%char; simpl; [discriminate|].
  intros H. now rewrite (IH H).
Qed.

Lemma split_field (sep : ascii) (a b : string) :
  Js.occurrences sep a = 0 ->
  Js.split sep (a ++ String sep b) = a :: Js.split sep b.
Proof.
  induction a as [|c rest IH]; simpl.
  - now rewrite Ascii.eqb_refl.
  - destruct (c =? sep)%char; simpl; [discriminate|].
    intros H. now rewrite (IH H).
Qed.

Lemma occurrences_app (c : ascii) (a b : string) :
  Js.occurrences c (a ++ b) = Js.occurrences c a + Js.occurrences c b.
Proof.
  induction a as [|d rest IH]; simpl; [reflexivity|]. rewrite IH. lia.
Qed.

Lemma occurrences_join (c : ascii) (sep : string) (xs : list string) :
  Js.occurrences c sep = 0 ->
  Forall (fun x => Js.occurrences c x = 0) xs ->
  Js.occurrences c (Js.join sep xs) = 0.
Proof.
  intros Hsep. unfold Js.join. induction 1 as [|x xs Hx Hxs IH]; simpl; [reflexivity|].
  destruct xs as [|y ys]; [exact Hx|].
  rewrite !occurrences_app, Hx, Hsep. exact IH.
Qed.

Lemma split_join (sep : ascii) (xs : list string) :
  xs <> [] ->
  Forall (fun x => Js.occurrences sep x = 0) xs ->
  Js.split sep (Js.join (String sep "") xs) = xs.
Proof.
  intros Hne H. unfold Js.join. induction H as [|x xs Hx Hxs IH]; [congruence|].
  destruct xs as [|y ys]; simpl.
  - now apply split_without_sep.
  - change (String sep "" ++ ?z)%string with (String sep z).
    rewrite (split_field sep x _ Hx). f_equal. apply IH. discriminate.
Qed.

Lemma hex_without (c : ascii) (s : string) :
  Js.unhex c = None -> Codec.is_hex s -> Js.occurrences c s = 0.
Proof.
  intros Hc. unfold Codec.is_hex. induction s as [|d rest IH]; simpl; [reflexivity|].
  intros H. inversion H as [|? ? Hd Hrest]; subst.
  destruct (Ascii.eqb_spec d c) as [->|]; [contradiction|]. now apply IH.
Qed.

Lemma hexes_without (c : ascii) (xs : list string) :
  Js.unhex c = None -> Forall Codec.is_hex xs ->
  Forall (fun x => Js.occurrences c x = 0) xs.
Proof.
  intros Hc H. induction H; constructor; [now apply hex_without | assumption].
Qed.

(** *** The coin codec: [parseCoin] *)

Lemma parseCoin_fields (s f3 f4 : string) (rest : list string) (f1 f2 : string) :
  Js.split "-" s = BANK_STR :: f1 :: f2 :: f3 :: f4 :: rest ->
  parseCoin s = Return (Js.split "," f3, Js.split "," f4).
Proof.
  intros H. unfold parseCoin. rewrite H. simpl.
  now rewrite String.eqb_refl.
Qed.

(** C9. Whenever the first '-'-delimited field of the input differs from the
    bank tag, [parseCoin] throws the wrong-issuer error (naming the field
    received and the tag expected) and returns no hash lists. *)
Theorem parseCoin_wrong_issuer (s cnst : string) :
  nth_error (Js.split "-" s) 0 = Some cnst ->
  cnst <> BANK_STR ->
  parseCoin s =
    Throw (Error ("Invalid identity string: " ++ cnst
                  ++ " received, but " ++ BANK_STR ++ " expected")).
Proof.
  intros Hfirst Hne. unfold parseCoin. rewrite Hfirst. simpl.
  apply String.eqb_neq in Hne. now rewrite Hne.
Qed.

(** C5 (amended). [parseCoin] checks the bank tag and nothing else: when the
    first field is the bank tag and a fourth and a fifth field exist, it
    returns their ','-splits, of whatever lengths. *)
Theorem parseCoin_checks_tag_only (s f3 f4 : string) :
  nth_error (Js.split "-" s) 0 = Some BANK_STR ->
  nth_error (Js.split "-" s) 3 = Some f3 ->
  nth_error (Js.split "-" s) 4 = Some f4 ->
  parseCoin s = Return (Js.split "," f3, Js.split "," f4).
Proof.
  intros H0 H3 H4. unfold parseCoin. rewrite H0, H3, H4. simpl.
  now rewrite String.eqb_refl.
Qed.

(** C10 (amended). An input that splits on '-' into fewer than five fields
    (the number of fields being one more than the number of '-') and whose
    first field is the bank tag makes [parseCoin] fail with the TypeError of
    calling [split] on [undefined]. *)
Theorem parseCoin_too_few_fields (s : string) :
  length (Js.split "-" s) = S (Js.occurrences "-" s) /\
  (length (Js.split "-" s) < 5 ->
   nth_error (Js.split "-" s) 0 = Some BANK_STR ->
   parseCoin s = Throw TypeError).
Proof.
  split; [apply split_length|].
  intros Hlen H0.
  assert (H4 : nth_error (Js.split "-" s) 4 = None)
    by (apply nth_error_None; lia).
  unfold parseCoin. cbv zeta.
  rewrite H0, H4, (proj2 (strict_neq_false _ _) eq_refl).
  now destruct (nth_error (Js.split "-" s) 3).
Qed.

(** C7. For every valid coin (the bank tag holding no '-', at least one
    index), the canonical string of the coin exists and [parseCoin] gives
    back exactly its two lists of hash commitments. *)
Theorem parseCoin_encode_roundtrip (c : Codec.coin_data) :
  Js.occurrences "-" BANK_STR = 0 ->
  0 < COIN_RIS_LENGTH ->
  valid_coin c ->
  exists s, Codec.encode BANK_STR c = Some s /\
            parseCoin s = Return (Codec.hashLeft c, Codec.hashRight c).
Proof.
  intros Hbank Hpos (Hamt & Hguid & Hll & Hlr & Hhl & Hhr).
  unfold Codec.encode. rewrite Hamt, Hguid. simpl.
  eexists. split; [reflexivity|].
  assert (Hl : Js.occurrences "-" (Js.join "," (Codec.hashLeft c)) = 0).
  { apply occurrences_join; [reflexivity|]. now apply hexes_without. }
  assert (Hr : Js.occurrences "-" (Js.join "," (Codec.hashRight c)) = 0).
  { apply occurrences_join; [reflexivity|]. now apply hexes_without. }
  rewrite (parseCoin_fields _ (Js.join "," (Codec.hashLeft c))
             (Js.join "," (Codec.hashRight c)) [] (Codec.amount c) (Codec.guid c)).
  - rewrite !split_join; try reflexivity.
    + intros E. rewrite E in Hlr. simpl in Hlr. lia.
    + now apply hexes_without.
    + intros E. rewrite E in Hll. simpl in Hll. lia.
    + now apply hexes_without.
  - rewrite (split_field "-" BANK_STR _ Hbank).
    rewrite (split_field "-" _ _ Hamt).
    rewrite (split_field "-" _ _ Hguid).
    rewrite (split_field "-" _ _ Hl).
    now rewrite (split_without_sep "-" _ Hr).
Qed.

(** *** The spend protocol: [acceptCoin] *)

Lemma gatherRis_step coin bits lh rh count i ris :
  gatherRis coin bits lh rh (S count) i ris =
    if Js.strict_neq (Some (hash (Coin.getRis coin (bits i) i)))
                     (if bits i then nth_error lh i else nth_error rh i)
    then ([Random (bits i); GetRis (bits i) i],
          Throw (Error "RIS hash mismatch – Coin may be forged!"))
    else let (t, r) := gatherRis coin bits lh rh count (S i)
                                 (ris ++ [Coin.getRis coin (bits i) i]) in
         (Random (bits i) :: GetRis (bits i) i :: t, r).
Proof.
  cbn [gatherRis]. unfold bind, call, throw. cbn [app].
  destruct (Js.strict_neq _ _); [reflexivity|].
  now destruct (gatherRis _ _ _ _ _ _ _).
Qed.

Lemma challenges_step bits i count :
  challenges bits i (S count) =
    Random (bits i) :: GetRis (bits i) i :: challenges bits (S i) count.
Proof. reflexivity. Qed.

(** Every index of the range passes the hash check: the loop ends with the
    shares of the range appended, in index order. *)
Lemma gatherRis_ok coin bits lh rh count : forall i ris,
  (forall j, i <= j < i + count ->
     Some (hash (Coin.getRis coin (bits j) j))
     = (if bits j then nth_error lh j else nth_error rh j)) ->
  gatherRis coin bits lh rh count i ris =
    (challenges bits i count,
     Return (ris ++ map (fun j => Coin.getRis coin (bits j) j) (seq i count))).
Proof.
  induction count as [|count IH]; intros i ris Hall.
  - simpl. now rewrite app_nil_r.
  - rewrite gatherRis_step, challenges_step.
    rewrite (proj2 (strict_neq_false _ _) (Hall i ltac:(lia))).
    rewrite IH by (intros j Hj; apply Hall; lia).
    cbn [seq map]. now rewrite <- app_assoc.
Qed.

(** Some index of the range fails the hash check: the loop throws at the
    first such index, having issued the challenges up to it and no other. *)
Lemma gatherRis_mismatch coin bits lh rh count : forall i ris k,
  i <= k < i + count ->
  Some (hash (Coin.getRis coin (bits k) k))
  <> (if bits k then nth_error lh k else nth_error rh k) ->
  exists k', i <= k' <= k /\
    gatherRis coin bits lh rh count i ris =
      (challenges bits i (S (k' - i)),
       Throw (Error "RIS hash mismatch – Coin may be forged!")).
Proof.
  induction count as [|count IH]; intros i ris k Hk Hbad; [lia|].
  rewrite gatherRis_step.
  destruct (Js.strict_neq _ _) eqn:E.
  - exists i. split; [lia|]. now rewrite Nat.sub_diag.
  - apply strict_neq_false in E.
    assert (k <> i) by (intros ->; contradiction).
    destruct (IH (S i) (ris ++ [Coin.getRis coin (bits i) i]) k ltac:(lia) Hbad)
      as (k' & Hk' & ->).
    exists k'. split; [lia|].
    replace (S (k' - i)) with (S (S (k' - S i))) by lia.
    now rewrite (challenges_step bits i).
Qed.

Lemma gatherRis_length coin bits lh rh count : forall i ris t out,
  gatherRis coin bits lh rh count i ris = (t, Return out) ->
  length out = length ris + count.
Proof.
  induction count as [|count IH]; intros i ris t out.
  - simpl. unfold ret. intros [= _ <-]. lia.
  - rewrite gatherRis_step. destruct (Js.strict_neq _ _); [discriminate|].
    destruct (gatherRis _ _ _ _ _ _ _) as [t' r] eqn:E. intros [= _ ->].
    apply IH in E. rewrite E, length_app. simpl. lia.
Qed.

Lemma acceptCoin_verified coin bits lh rh :
  verify (Coin.signature coin) (Coin.toString coin) (Coin.n coin) (Coin.e coin) = true ->
  parseCoin (Coin.toString coin) = Return (lh, rh) ->
  acceptCoin coin bits =
    let (t, r) := gatherRis coin bits lh rh COIN_RIS_LENGTH 0 [] in
    (Verify true :: ParseCoin (Coin.toString coin) :: t, r).
Proof.
  intros Hv Hp. unfold acceptCoin. rewrite Hv, Hp.
  unfold bind, call, emit, lift. cbn [negb app].
  now destruct (gatherRis _ _ _ _ _ _ _).
Qed.

(** C3. The first call of every run of [acceptCoin] is the verification of
    the signature against the coin's string; and a coin whose signature fails
    it is rejected with the invalid-signature error, the verification being
    the only call made: the coin is not decoded, no challenge is issued and
    no transcript exists. *)
Theorem acceptCoin_invalid_signature (coin : Coin.t) (bits : nat -> bool) :
  (exists rest,
     fst (acceptCoin coin bits) =
       Verify (verify (Coin.signature coin) (Coin.toString coin)
                      (Coin.n coin) (Coin.e coin)) :: rest)
  /\
  (verify (Coin.signature coin) (Coin.toString coin) (Coin.n coin) (Coin.e coin) = false ->
   acceptCoin coin bits = ([Verify false], Throw (Error "Invalid signature!"))).
Proof.
  split.
  - unfold acceptCoin, bind, call, emit, lift.
    destruct (verify _ _ _ _); cbn [negb app]; [|simpl; eauto].
    destruct (parseCoin _) as [[lh rh]|err]; [|simpl; eauto].
    destruct (gatherRis _ _ _ _ _ _ _). simpl. eauto.
  - intros Hv. unfold acceptCoin. now rewrite Hv.
Qed.

(** C4. Acceptance is all-or-nothing.  Once the signature verified and the
    coin decoded, a disclosed share whose hash differs from the commitment
    of the chosen side at some index [i] makes [acceptCoin] throw the forgery
    error at the first such index [k], after the challenges [0..k] and
    nothing else; and whenever [acceptCoin] returns a transcript, it has
    exactly [COIN_RIS_LENGTH] entries. *)
Theorem acceptCoin_atomic (coin : Coin.t) (bits : nat -> bool) :
  (forall lh rh i,
     verify (Coin.signature coin) (Coin.toString coin) (Coin.n coin) (Coin.e coin) = true ->
     parseCoin (Coin.toString coin) = Return (lh, rh) ->
     i < COIN_RIS_LENGTH ->
     Some (hash (Coin.getRis coin (bits i) i))
     <> (if bits i then nth_error lh i else nth_error rh i) ->
     exists k, k <= i /\
       acceptCoin coin bits =
         (Verify true :: ParseCoin (Coin.toString coin) :: challenges bits 0 (S k),
          Throw (Error "RIS hash mismatch – Coin may be forged!")))
  /\ (forall t ris,
       acceptCoin coin bits = (t, Return ris) -> length ris = COIN_RIS_LENGTH).
Proof.
  split.
  - intros lh rh i Hv Hp Hi Hbad.
    destruct (gatherRis_mismatch coin bits lh rh COIN_RIS_LENGTH 0 [] i
                ltac:(lia) Hbad) as (k & Hk & E).
    exists k. split; [lia|].
    rewrite (acceptCoin_verified coin bits lh rh Hv Hp), E.
    now rewrite Nat.sub_0_r.
  - intros t ris. unfold acceptCoin.
    destruct (verify _ _ _ _); [|discriminate].
    destruct (parseCoin (Coin.toString coin)) as [[lh rh]|err] eqn:Hp;
      [|discriminate].
    unfold bind, call, emit, lift. cbn [negb app].
    destruct (gatherRis _ _ _ _ _ _ _) as [t' r] eqn:E.
    intros [= _ ->]. now apply gatherRis_length in E.
Qed.

(** C8. A validly signed coin whose string decodes and whose shares hash to
    their commitments on both sides at every index is accepted, whatever the
    random bits: no forgery error, and the transcript has exactly
    [COIN_RIS_LENGTH] entries, entry [i] being the share disclosed at
    index [i]. *)
Theorem acceptCoin_well_formed (coin : Coin.t) (bits : nat -> bool)
    (lh rh : list string) :
  verify (Coin.signature coin) (Coin.toString coin) (Coin.n coin) (Coin.e coin) = true ->
  parseCoin (Coin.toString coin) = Return (lh, rh) ->
  (forall i, i < COIN_RIS_LENGTH ->
     nth_error lh i = Some (hash (Coin.getRis coin true i)) /\
     nth_error rh i = Some (hash (Coin.getRis coin false i))) ->
  exists ris,
    acceptCoin coin bits =
      (Verify true :: ParseCoin (Coin.toString coin)
         :: challenges bits 0 COIN_RIS_LENGTH, Return ris) /\
    length ris = COIN_RIS_LENGTH /\
    forall i, i < COIN_RIS_LENGTH ->
      nth_error ris i = Some (Coin.getRis coin (bits i) i).
Proof.
  intros Hv Hp Hwf.
  exists (map (fun j => Coin.getRis coin (bits j) j) (seq 0 COIN_RIS_LENGTH)).
  split; [|split].
  - rewrite (acceptCoin_verified coin bits lh rh Hv Hp).
    rewrite gatherRis_ok; [reflexivity|].
    intros j Hj. destruct (Hwf j ltac:(lia)) as [Hl Hr].
    now destruct (bits j).
  - now rewrite length_map, length_seq.
  - intros i Hi.
    rewrite nth_error_map, nth_error_seq.
    destruct (Nat.ltb_spec i COIN_RIS_LENGTH); [reflexivity | lia].
Qed.

(** *** The double-spend detector: [determineCheater] *)

Lemma determineCheater_scan guid ris1 ris2 :
  determineCheater guid ris1 ris2 =
    let (t, r) := scan ris1 ris2 COIN_RIS_LENGTH 0 in
    (Log (analyzing_line guid) :: t, r).
Proof.
  unfold determineCheater, bind, emit. now destruct (scan _ _ _ _).
Qed.

(** The loop on a range where the transcripts agree. *)
Lemma scan_agree ris1 ris2 count : forall i,
  (forall j, i <= j < i + count -> nth_error ris1 j = nth_error ris2 j) ->
  scan ris1 ris2 count i = ([Log identical_line], Return tt).
Proof.
  induction count as [|count IH]; intros i Hall; [reflexivity|].
  cbn [scan]. rewrite (proj2 (strict_neq_false _ _) (Hall i ltac:(lia))).
  apply IH. intros j Hj. apply Hall. lia.
Qed.

(** The loop on a range whose first difference is at index [k]. *)
Lemma scan_differ ris1 ris2 count s1 s2 k : forall i,
  i <= k < i + count ->
  (forall j, i <= j < k -> nth_error ris1 j = nth_error ris2 j) ->
  nth_error ris1 k = Some s1 ->
  nth_error ris2 k = Some s2 ->
  s1 <> s2 ->
  scan ris1 ris2 count i =
    ([Log (if Js.startsWith
                (Js.Buffer_toString (xorBuffers (Js.hexDecode s1) (Js.hexDecode s2)))
                IDENT_STR
           then buyer_line
                  (nth_error
                     (Js.split ":" (Js.Buffer_toString
                                      (xorBuffers (Js.hexDecode s1) (Js.hexDecode s2))))
                     1)
           else merchant_line)],
     Return tt).
Proof.
  induction count as [|count IH]; intros i Hk Hbefore H1 H2 Hne; [lia|].
  cbn [scan]. destruct (Nat.eq_dec i k) as [->|Hik].
  - rewrite H1, H2.
    rewrite (proj2 (strict_neq_true (Some s1) (Some s2))) by congruence.
    unfold bind, lift, emit. cbn [Js.Buffer_from_hex app].
    now destruct (Js.startsWith _ _).
  - rewrite (proj2 (strict_neq_false _ _) (Hbefore i ltac:(lia))).
    apply IH; try assumption; [lia|]. intros j Hj. apply Hbefore. lia.
Qed.

(** The loop reads the entries of its range and nothing else. *)
Lemma scan_ext ris1 ris2 ris1' ris2' count : forall i,
  (forall j, i <= j < i + count -> nth_error ris1 j = nth_error ris1' j) ->
  (forall j, i <= j < i + count -> nth_error ris2 j = nth_error ris2' j) ->
  scan ris1 ris2 count i = scan ris1' ris2' count i.
Proof.
  induction count as [|count IH]; intros i Hl Hr; [reflexivity|].
  cbn [scan]. rewrite <- (Hl i), <- (Hr i) by lia.
  destruct (Js.strict_neq _ _); [reflexivity|].
  apply IH; intros j Hj; [apply Hl | apply Hr]; lia.
Qed.

(** C1 (amended). When the transcripts first differ at index [i], the verdict
    comes from that index alone.  With [recovered] the text of the
    exclusive-or of the two entries: if [recovered] starts with the identity
    marker (the ':' after it is not looked at), the buyer is reported, and
    the identity reported is the payload whenever [recovered] is the marker,
    a ':' and a payload, neither marker nor payload holding a ':';
    otherwise a merchant is reported. *)
Theorem determineCheater_first_difference
    (guid : string) (ris1 ris2 : list string) (i : nat) (s1 s2 : string) :
  i < COIN_RIS_LENGTH ->
  (forall j, j < i -> nth_error ris1 j = nth_error ris2 j) ->
  nth_error ris1 i = Some s1 ->
  nth_error ris2 i = Some s2 ->
  s1 <> s2 ->
  let recovered :=
    Js.Buffer_toString (xorBuffers (Js.hexDecode s1) (Js.hexDecode s2)) in
  (Js.startsWith recovered IDENT_STR = true ->
   exists trueId,
     determineCheater guid ris1 ris2 =
       ([Log (analyzing_line guid); Log (buyer_line trueId)], Return tt) /\
     forall payload,
       Js.occurrences ":" IDENT_STR = 0 ->
       Js.occurrences ":" payload = 0 ->
       recovered = (IDENT_STR ++ ":" ++ payload)%string ->
       trueId = Some payload)
  /\
  (Js.startsWith recovered IDENT_STR = false ->
   determineCheater guid ris1 ris2 =
     ([Log (analyzing_line guid); Log merchant_line], Return tt)).
Proof.
  intros Hi Hbefore H1 H2 Hne recovered.
  assert (E : determineCheater guid ris1 ris2 =
              ([Log (analyzing_line guid);
                Log (if Js.startsWith recovered IDENT_STR
                     then buyer_line (nth_error (Js.split ":" recovered) 1)
                     else merchant_line)],
               Return tt)).
  { rewrite determineCheater_scan.
    rewrite (scan_differ ris1 ris2 COIN_RIS_LENGTH s1 s2 i 0); try assumption.
    - reflexivity.
    - lia.
    - intros j Hj. apply Hbefore. lia. }
  split; intros Hmark; rewrite Hmark in E; [|exact E].
  exists (nth_error (Js.split ":" recovered) 1). split; [exact E|].
  intros payload Hid Hpay ->.
  change (":" ++ payload)%string with (String ":" payload).
  now rewrite (split_field ":" IDENT_STR payload Hid), (split_without_sep ":" payload Hpay).
Qed.

(** C2. Transcripts that are equal at every index below [COIN_RIS_LENGTH]
    always get the verdict that a merchant claims a double spend falsely;
    the buyer is never reported. *)
Theorem determineCheater_identical (guid : string) (ris1 ris2 : list string) :
  (forall i, i < COIN_RIS_LENGTH -> nth_error ris1 i = nth_error ris2 i) ->
  determineCheater guid ris1 ris2 =
    ([Log (analyzing_line guid); Log identical_line], Return tt)
  /\ forall trueId,
       ~ In (Log (buyer_line trueId)) (fst (determineCheater guid ris1 ris2)).
Proof.
  intros Hall.
  assert (E : determineCheater guid ris1 ris2 =
              ([Log (analyzing_line guid); Log identical_line], Return tt)).
  { rewrite determineCheater_scan, scan_agree; [reflexivity|].
    intros j Hj. apply Hall. lia. }
  split; [exact E|].
  intros trueId. rewrite E. cbn [fst In].
  intros [H|[H|[]]]; discriminate H.
Qed.

(** C6 (amended). The detector checks neither the lengths of the transcripts
    nor the guid: the guid only appears in the first line printed, and what
    follows is determined by the entries at the indices below
    [COIN_RIS_LENGTH] alone. *)
Theorem determineCheater_no_input_check
    (guid guid' : string) (ris1 ris2 ris1' ris2' : list string) :
  (forall i, i < COIN_RIS_LENGTH -> nth_error ris1 i = nth_error ris1' i) ->
  (forall i, i < COIN_RIS_LENGTH -> nth_error ris2 i = nth_error ris2' i) ->
  exists t r,
    determineCheater guid ris1 ris2 = (Log (analyzing_line guid) :: t, r) /\
    determineCheater guid' ris1' ris2' = (Log (analyzing_line guid') :: t, r).
Proof.
  intros Hl Hr. rewrite !determineCheater_scan.
  rewrite (scan_ext ris1 ris2 ris1' ris2' COIN_RIS_LENGTH 0)
    by (intros j Hj; first [apply Hl | apply Hr]; lia).
  destruct (scan ris1' ris2' COIN_RIS_LENGTH 0) as [t r]. eauto.
Qed.

(** *** Further facts about the built-ins *)

Lemma split_pieces_without (c sep : ascii) (s : string) :
  Js.occurrences c s = 0 ->
  Forall (fun piece => Js.occurrences c piece = 0) (Js.split sep s).
Proof.
  induction s as [|d rest IH]; simpl.
  - intros _. repeat constructor.
  - destruct (d =? c)%char eqn:Edc; [discriminate|]. simpl. intros H.
    specialize (IH H).
    destruct (d =? sep)%char.
    + constructor; [reflexivity | exact IH].
    + destruct (Js.split sep rest) as [|piece pieces].
      * repeat constructor. simpl. now rewrite Edc.
      * inversion IH as [|? ? Hp Hps]; subst.
        constructor; [simpl; now rewrite Edc | exact Hps].
Qed.

Lemma split_pieces (sep : ascii) (s : string) :
  Forall (fun piece => Js.occurrences sep piece = 0) (Js.split sep s).
Proof.
  induction s as [|d rest IH]; simpl.
  - repeat constructor.
  - destruct (d =? sep)%char eqn:E.
    + constructor; [reflexivity | exact IH].
    + destruct (Js.split sep rest) as [|piece pieces].
      * repeat constructor. simpl. now rewrite E.
      * inversion IH as [|? ? Hp Hps]; subst.
        constructor; [simpl; now rewrite E | exact Hps].
Qed.

Lemma join_split (sep : ascii) (s : string) :
  Js.join (String sep "") (Js.split sep s) = s.
Proof.
  unfold Js.join. induction s as [|d rest IH]; simpl; [reflexivity|].
  destruct (split_first sep rest) as (piece & pieces & E). rewrite E in *.
  destruct (Ascii.eqb_spec d sep) as [->|Hne].
  - simpl. simpl in IH. now rewrite IH.
  - destruct pieces as [|q qs]; simpl in *; now rewrite IH.
Qed.

Lemma split_app (sep : ascii) (a b : string) :
  Js.split sep (a ++ String sep b) = (Js.split sep a ++ Js.split sep b)%list.
Proof.
  induction a as [|d rest IH]; simpl.
  - now rewrite Ascii.eqb_refl.
  - rewrite IH. destruct (d =? sep)%char; [reflexivity|].
    now destruct (split_first sep rest) as (piece & pieces & ->).
Qed.

Lemma startsWith_app (p s : string) : Js.startsWith (p ++ s) p = true.
Proof.
  unfold Js.startsWith. induction p as [|c p IH]; simpl.
  - now destruct s.
  - destruct (ascii_dec c c); [exact IH | congruence].
Qed.

Lemma strict_neq_sym (a b : option string) :
  Js.strict_neq a b = Js.strict_neq b a.
Proof.
  destruct a as [x|], b as [y|]; simpl; try reflexivity.
  now rewrite String.eqb_sym.
Qed.

(** *** Further properties of [parseCoin] *)

Lemma parseCoin_inv (s : string) (lh rh : list string) :
  parseCoin s = Return (lh, rh) ->
  nth_error (Js.split "-" s) 0 = Some BANK_STR /\
  exists f3 f4,
    nth_error (Js.split "-" s) 3 = Some f3 /\
    nth_error (Js.split "-" s) 4 = Some f4 /\
    lh = Js.split "," f3 /\ rh = Js.split "," f4.
Proof.
  unfold parseCoin. cbv zeta.
  destruct (Js.strict_neq _ _) eqn:E; [discriminate|].
  apply strict_neq_false in E.
  destruct (nth_error (Js.split "-" s) 3) as [f3|]; [|discriminate].
  destruct (nth_error (Js.split "-" s) 4) as [f4|]; [|discriminate].
  simpl. intros [= <- <-]. split; [exact E|]. now exists f3, f4.
Qed.

(** X1. [parseCoin] returns hash lists exactly when the first field of its
    input is the bank tag and the input holds at least four '-'. *)
Theorem parseCoin_returns_iff (s : string) :
  (exists lh rh, parseCoin s = Return (lh, rh)) <->
  nth_error (Js.split "-" s) 0 = Some BANK_STR /\ 4 <= Js.occurrences "-" s.
Proof.
  split.
  - intros (lh & rh & H). apply parseCoin_inv in H.
    destruct H as (H0 & f3 & f4 & _ & H4 & _). split; [exact H0|].
    assert (4 < length (Js.split "-" s))
      by (apply nth_error_Some; congruence).
    rewrite split_length in *. lia.
  - intros [H0 Hocc]. unfold parseCoin. cbv zeta.
    rewrite H0, (proj2 (strict_neq_false _ _) eq_refl).
    destruct (nth_error (Js.split "-" s) 3) as [f3|] eqn:H3.
    + destruct (nth_error (Js.split "-" s) 4) as [f4|] eqn:H4; [simpl; eauto|].
      apply nth_error_None in H4. rewrite split_length in H4. lia.
    + apply nth_error_None in H3. rewrite split_length in H3. lia.
Qed.

(** X2. The lists [parseCoin] returns are never empty, and none of their
    entries holds a ',' or a '-'. *)
Theorem parseCoin_lists_clean (s : string) (lh rh : list string) :
  parseCoin s = Return (lh, rh) ->
  lh <> [] /\ rh <> [] /\
  Forall (fun h => Js.occurrences "," h = 0 /\ Js.occurrences "-" h = 0)
         (lh ++ rh).
Proof.
  intros H. apply parseCoin_inv in H.
  destruct H as (_ & f3 & f4 & H3 & H4 & -> & ->).
  assert (Hfield : forall k f, nth_error (Js.split "-" s) k = Some f ->
                               Js.occurrences "-" f = 0).
  { intros k f Hk. apply nth_error_In in Hk.
    exact (proj1 (Forall_forall _ _) (split_pieces "-" s) f Hk). }
  assert (Hclean : forall f, Js.occurrences "-" f = 0 ->
            Forall (fun h => Js.occurrences "," h = 0 /\ Js.occurrences "-" h = 0)
                   (Js.split "," f)).
  { intros f Hf. apply Forall_forall. intros h Hin. split.
    - exact (proj1 (Forall_forall _ _) (split_pieces "," f) h Hin).
    - exact (proj1 (Forall_forall _ _) (split_pieces_without "-" "," f Hf) h Hin). }
  repeat split.
  - destruct (split_first "," f3) as (p & ps & ->). discriminate.
  - destruct (split_first "," f4) as (p & ps & ->). discriminate.
  - apply Forall_app. split; apply Hclean; eauto.
Qed.

(** X3. Joining a returned list with ',' gives back the field it was read
    from: the fourth field for the left list, the fifth for the right one. *)
Theorem parseCoin_rejoin (s : string) (lh rh : list string) :
  parseCoin s = Return (lh, rh) ->
  nth_error (Js.split "-" s) 3 = Some (Js.join "," lh) /\
  nth_error (Js.split "-" s) 4 = Some (Js.join "," rh).
Proof.
  intros H. apply parseCoin_inv in H.
  destruct H as (_ & f3 & f4 & H3 & H4 & -> & ->).
  now rewrite !join_split.
Qed.

(** X4. Fields after the fifth are ignored: appending a '-' and any text to
    an input that holds at least four '-' changes nothing of what
    [parseCoin] does. *)
Theorem parseCoin_ignores_suffix (s junk : string) :
  4 <= Js.occurrences "-" s ->
  parseCoin (s ++ "-" ++ junk) = parseCoin s.
Proof.
  intros Hocc. unfold parseCoin. cbv zeta.
  change ("-" ++ junk)%string with (String "-" junk).
  rewrite split_app.
  rewrite !nth_error_app1 by (rewrite split_length; lia).
  reflexivity.
Qed.

(** *** Further properties of [acceptCoin] *)

(** A loop that returns passed the hash check at every index of its range. *)
Lemma gatherRis_inv coin bits lh rh count : forall i ris t out,
  gatherRis coin bits lh rh count i ris = (t, Return out) ->
  forall j, i <= j < i + count ->
    Some (hash (Coin.getRis coin (bits j) j))
    = (if bits j then nth_error lh j else nth_error rh j).
Proof.
  induction count as [|count IH]; intros i ris t out H j Hj; [lia|].
  rewrite gatherRis_step in H.
  destruct (Js.strict_neq _ _) eqn:E; [discriminate|].
  apply strict_neq_false in E.
  destruct (gatherRis _ _ _ _ _ _ _) as [t' r] eqn:E'.
  injection H as _ ->.
  destruct (Nat.eq_dec j i) as [->|]; [exact E|].
  apply (IH _ _ _ _ E'). lia.
Qed.


(** The loop prints nothing. *)
Lemma gatherRis_silent coin bits lh rh count line : forall i ris,
  ~ In (Log line) (fst (gatherRis coin bits lh rh count i ris)).
Proof.
  induction count as [|count IH]; intros i ris; [simpl; tauto|].
  rewrite gatherRis_step.
  destruct (Js.strict_neq _ _).
  - simpl. intros [H|[H|[]]]; discriminate.
  - specialize (IH (S i) (ris ++ [Coin.getRis coin (bits i) i])%list).
    destruct (gatherRis _ _ _ _ _ _ _) as [t' r].
    simpl in *. intros [H|[H|H]]; [discriminate | discriminate | tauto].
Qed.

Lemma acceptCoin_accepted coin bits t ris :
  acceptCoin coin bits = (t, Return ris) ->
  verify (Coin.signature coin) (Coin.toString coin) (Coin.n coin) (Coin.e coin) = true /\
  exists lh rh,
    parseCoin (Coin.toString coin) = Return (lh, rh) /\
    gatherRis coin bits lh rh COIN_RIS_LENGTH 0 []
    = (challenges bits 0 COIN_RIS_LENGTH,
       Return (map (fun i => Coin.getRis coin (bits i) i) (seq 0 COIN_RIS_LENGTH))) /\
    t = Verify true :: ParseCoin (Coin.toString coin)
          :: challenges bits 0 COIN_RIS_LENGTH /\
    ris = map (fun i => Coin.getRis coin (bits i) i) (seq 0 COIN_RIS_LENGTH).
Proof.
  intros H.
  destruct (verify (Coin.signature coin) (Coin.toString coin) (Coin.n coin)
              (Coin.e coin)) eqn:Hv.
  - split; [reflexivity|].
    destruct (parseCoin (Coin.toString coin)) as [[lh rh]|err] eqn:Hp.
    + exists lh, rh. split; [reflexivity|].
      rewrite (acceptCoin_verified coin bits lh rh Hv Hp) in H.
      destruct (gatherRis _ _ _ _ _ _ _) as [t' r] eqn:E.
      injection H as <- ->.
      pose proof (gatherRis_inv _ _ _ _ _ _ _ _ _ E) as Hall.
      rewrite (gatherRis_ok coin bits lh rh COIN_RIS_LENGTH 0 [] Hall) in E.
      injection E as <- <-. repeat split.
    + unfold acceptCoin in H. rewrite Hv, Hp in H. discriminate.
  - unfold acceptCoin in H. rewrite Hv in H. discriminate.
Qed.

(** X5. A coin whose string [parseCoin] rejects is rejected by [acceptCoin]
    with the same exception, right after the signature check and the
    decoding: no random bit is drawn and no share is requested. *)
Theorem acceptCoin_parse_error (coin : Coin.t) (bits : nat -> bool) (e : exn) :
  verify (Coin.signature coin) (Coin.toString coin) (Coin.n coin) (Coin.e coin) = true ->
  parseCoin (Coin.toString coin) = Throw e ->
  acceptCoin coin bits
  = ([Verify true; ParseCoin (Coin.toString coin)], Throw e).
Proof.
  intros Hv Hp. unfold acceptCoin. now rewrite Hv, Hp.
Qed.

(** X6. Acceptance is sound: whenever [acceptCoin] returns a transcript, the
    signature verified, the coin string decoded, exactly one challenge per
    index was issued, and entry [i] of the transcript is the share of the
    side drawn at index [i], whose hash equals the commitment decoded for
    that side and index. *)
Theorem acceptCoin_accepted_checked
    (coin : Coin.t) (bits : nat -> bool) (t : list event) (ris : list string) :
  acceptCoin coin bits = (t, Return ris) ->
  verify (Coin.signature coin) (Coin.toString coin) (Coin.n coin) (Coin.e coin) = true /\
  exists lh rh,
    parseCoin (Coin.toString coin) = Return (lh, rh) /\
    t = Verify true :: ParseCoin (Coin.toString coin)
          :: challenges bits 0 COIN_RIS_LENGTH /\
    forall i, i < COIN_RIS_LENGTH ->
      nth_error ris i = Some (Coin.getRis coin (bits i) i) /\
      Some (hash (Coin.getRis coin (bits i) i))
      = (if bits i then nth_error lh i else nth_error rh i).
Proof.
  intros H. destruct (acceptCoin_accepted coin bits t ris H)
    as (Hv & lh & rh & Hp & Hg & -> & ->).
  split; [exact Hv|]. exists lh, rh. repeat split; try assumption.
  - rewrite nth_error_map, nth_error_seq.
    destruct (Nat.ltb_spec i COIN_RIS_LENGTH); [reflexivity | lia].
  - apply (gatherRis_inv _ _ _ _ _ _ _ _ _ Hg). lia.
Qed.


(** X8. Hash lists that are too short are caught by the loop: a coin whose
    decoded lists both hold fewer than [COIN_RIS_LENGTH] entries is rejected
    with the forgery error whatever the random bits, no later than at the
    first index that lies beyond both lists. *)
Theorem acceptCoin_short_lists
    (coin : Coin.t) (bits : nat -> bool) (lh rh : list string) :
  verify (Coin.signature coin) (Coin.toString coin) (Coin.n coin) (Coin.e coin) = true ->
  parseCoin (Coin.toString coin) = Return (lh, rh) ->
  length lh < COIN_RIS_LENGTH ->
  length rh < COIN_RIS_LENGTH ->
  exists k, k <= Nat.max (length lh) (length rh) /\
    acceptCoin coin bits =
      (Verify true :: ParseCoin (Coin.toString coin) :: challenges bits 0 (S k),
       Throw (Error "RIS hash mismatch – Coin may be forged!")).
Proof.
  intros Hv Hp Hl Hr.
  set (i := Nat.max (length lh) (length rh)).
  assert (Hbad : Some (hash (Coin.getRis coin (bits i) i))
                 <> (if bits i then nth_error lh i else nth_error rh i)).
  { destruct (bits i).
    - rewrite (proj2 (nth_error_None lh i)) by lia. discriminate.
    - rewrite (proj2 (nth_error_None rh i)) by lia. discriminate. }
  destruct (gatherRis_mismatch coin bits lh rh COIN_RIS_LENGTH 0 [] i
              ltac:(lia) Hbad) as (k & Hk & E).
  exists k. split; [lia|].
  rewrite (acceptCoin_verified coin bits lh rh Hv Hp), E.
  now rewrite Nat.sub_0_r.
Qed.

(** *** Further properties of [determineCheater] *)

Lemma scan_total ris1 ris2 count : forall i,
  i + count <= length ris1 ->
  i + count <= length ris2 ->
  exists line,
    scan ris1 ris2 count i = ([Log line], Return tt) /\ is_verdict line.
Proof.
  induction count as [|count IH]; intros i H1 H2.
  - exists identical_line. split; [reflexivity | now left].
  - cbn [scan]. destruct (Js.strict_neq _ _).
    + destruct (nth_error ris1 i) as [s1|] eqn:E1;
        [|apply nth_error_None in E1; lia].
      destruct (nth_error ris2 i) as [s2|] eqn:E2;
        [|apply nth_error_None in E2; lia].
      unfold bind, lift, emit. cbn [Js.Buffer_from_hex app].
      destruct (Js.startsWith _ _).
      * eexists. split; [reflexivity|]. right. right. eauto.
      * eexists. split; [reflexivity|]. right. now left.
    + apply IH; lia.
Qed.

Lemma scan_undefined ris1 ris2 count k : forall i,
  i <= k < i + count ->
  (forall j, i <= j < k -> nth_error ris1 j = nth_error ris2 j) ->
  nth_error ris1 k <> nth_error ris2 k ->
  nth_error ris1 k = None \/ nth_error ris2 k = None ->
  scan ris1 ris2 count i = ([], Throw TypeError).
Proof.
  induction count as [|count IH]; intros i Hk Hbefore Hne Hnone; [lia|].
  cbn [scan]. destruct (Nat.eq_dec i k) as [->|Hik].
  - rewrite (proj2 (strict_neq_true _ _) Hne).
    destruct Hnone as [E|E]; rewrite E; [reflexivity|].
    now destruct (nth_error ris1 k).
  - rewrite (proj2 (strict_neq_false _ _) (Hbefore i ltac:(lia))).
    apply IH; try assumption; [lia|]. intros j Hj. apply Hbefore. lia.
Qed.

Lemma scan_sym ris1 ris2 count :
  (forall a b, xorBuffers a b = xorBuffers b a) ->
  forall i, scan ris1 ris2 count i = scan ris2 ris1 count i.
Proof.
  intros Hcomm. induction count as [|count IH]; intros i; [reflexivity|].
  cbn [scan]. rewrite (strict_neq_sym (nth_error ris2 i)).
  destruct (Js.strict_neq _ _); [|apply IH].
  destruct (nth_error ris1 i) as [s1|], (nth_error ris2 i) as [s2|];
    try reflexivity.
  unfold bind, lift. cbn [Js.Buffer_from_hex app].
  now rewrite (Hcomm (Js.hexDecode s1)).
Qed.

(** X9. On transcripts that both hold at least [COIN_RIS_LENGTH] entries the
    detector never throws: it prints the analyzing line, then exactly one of
    its three verdicts, and returns. *)
Theorem determineCheater_total (guid : string) (ris1 ris2 : list string) :
  COIN_RIS_LENGTH <= length ris1 ->
  COIN_RIS_LENGTH <= length ris2 ->
  exists line,
    determineCheater guid ris1 ris2
    = ([Log (analyzing_line guid); Log line], Return tt) /\
    is_verdict line.
Proof.
  intros H1 H2.
  destruct (scan_total ris1 ris2 COIN_RIS_LENGTH 0 H1 H2) as (line & E & Hv).
  exists line. split; [|exact Hv].
  now rewrite determineCheater_scan, E.
Qed.

(** X10. When at the first index where the transcripts differ one of them
    has no entry, the detector fails with a TypeError after the analyzing
    line, without any verdict. *)
Theorem determineCheater_missing_entry
    (guid : string) (ris1 ris2 : list string) (i : nat) :
  i < COIN_RIS_LENGTH ->
  (forall j, j < i -> nth_error ris1 j = nth_error ris2 j) ->
  nth_error ris1 i <> nth_error ris2 i ->
  nth_error ris1 i = None \/ nth_error ris2 i = None ->
  determineCheater guid ris1 ris2
  = ([Log (analyzing_line guid)], Throw TypeError).
Proof.
  intros Hi Hbefore Hne Hnone.
  rewrite determineCheater_scan.
  rewrite (scan_undefined ris1 ris2 COIN_RIS_LENGTH i 0); try assumption.
  - reflexivity.
  - lia.
  - intros j Hj. apply Hbefore. lia.
Qed.

(** X11. When the exclusive-or of buffers does not depend on the order of
    its arguments, neither does the detector on the order of the two
    transcripts. *)
Theorem determineCheater_sym (guid : string) (ris1 ris2 : list string) :
  (forall a b, xorBuffers a b = xorBuffers b a) ->
  determineCheater guid ris1 ris2 = determineCheater guid ris2 ris1.
Proof.
  intros Hcomm. rewrite !determineCheater_scan.
  now rewrite (scan_sym ris1 ris2 COIN_RIS_LENGTH Hcomm 0).
Qed.

Lemma scan_identical_inv ris1 ris2 count : forall i,
  In (Log identical_line) (fst (scan ris1 ris2 count i)) ->
  forall j, i <= j < i + count -> nth_error ris1 j = nth_error ris2 j.
Proof.
  induction count as [|count IH]; intros i Hin j Hj; [lia|].
  cbn [scan] in Hin. destruct (Js.strict_neq _ _) eqn:E.
  - exfalso.
    destruct (nth_error ris1 i) as [s1|]; [|simpl in Hin; contradiction].
    destruct (nth_error ris2 i) as [s2|]; [|simpl in Hin; contradiction].
    unfold bind, lift, emit in Hin. cbn [Js.Buffer_from_hex app] in Hin.
    destruct (Js.startsWith _ _); simpl in Hin;
      destruct Hin as [H|[]]; discriminate.
  - apply strict_neq_false in E.
    destruct (Nat.eq_dec j i) as [->|]; [exact E|].
    apply (IH (S i) Hin). lia.
Qed.

(** X15. A difference is never passed over: the verdict that the
    transcripts are identical is printed only when they are equal at every
    index below [COIN_RIS_LENGTH]. *)
Theorem determineCheater_identical_only (guid : string) (ris1 ris2 : list string) :
  In (Log identical_line) (fst (determineCheater guid ris1 ris2)) ->
  forall i, i < COIN_RIS_LENGTH -> nth_error ris1 i = nth_error ris2 i.
Proof.
  rewrite determineCheater_scan. intros Hin i Hi.
  apply (scan_identical_inv ris1 ris2 COIN_RIS_LENGTH 0); [|lia].
  destruct (scan ris1 ris2 COIN_RIS_LENGTH 0) as [t r]. simpl in *.
  destruct Hin as [H|H]; [discriminate | exact H].
Qed.

(** *** The two spends and the detector together *)

(** The loop of the detector on the transcripts of two spends of one coin
    whose two shares, at every index and in either order, combine to the
    marker, a ':' and the payload. *)
Lemma scan_two_spends coin bits1 bits2 ris1 ris2 payload count :
  Js.occurrences ":" IDENT_STR = 0 ->
  Js.occurrences ":" payload = 0 ->
  forall i,
  (forall j, i <= j < i + count ->
     nth_error ris1 j = Some (Coin.getRis coin (bits1 j) j) /\
     nth_error ris2 j = Some (Coin.getRis coin (bits2 j) j)) ->
  (forall j a b, i <= j < i + count -> a <> b ->
     Js.Buffer_toString
       (xorBuffers (Js.hexDecode (Coin.getRis coin a j))
                   (Js.hexDecode (Coin.getRis coin b j)))
     = (IDENT_STR ++ ":" ++ payload)%string) ->
  (exists k, i <= k < i + count /\
     Coin.getRis coin (bits1 k) k <> Coin.getRis coin (bits2 k) k) ->
  scan ris1 ris2 count i = ([Log (buyer_line (Some payload))], Return tt).
Proof.
  intros Hid Hpay. induction count as [|count IH];
    intros i Hent Hxor (k & Hk & Hdiff); [lia|].
  cbn [scan]. destruct (Hent i ltac:(lia)) as [-> ->].
  destruct (String.eqb_spec (Coin.getRis coin (bits1 i) i)
                            (Coin.getRis coin (bits2 i) i)) as [E|E].
  - rewrite (proj2 (strict_neq_false _ _)) by now rewrite E.
    apply IH.
    + intros j Hj. apply Hent. lia.
    + intros j a b Hj. apply Hxor. lia.
    + exists k. split; [|exact Hdiff].
      assert (k <> i) by (intros ->; contradiction). lia.
  - rewrite (proj2 (strict_neq_true _ _)) by congruence.
    unfold bind, lift, emit. cbn [Js.Buffer_from_hex app].
    rewrite (Hxor i (bits1 i) (bits2 i)) by (try lia; congruence).
    rewrite startsWith_app.
    change (":" ++ payload)%string with (String ":" payload).
    now rewrite (split_field ":" IDENT_STR payload Hid),
                (split_without_sep ":" payload Hpay).
Qed.

(** X12. Double spending is detected.  Take a coin whose two shares, at
    every index and in either order, combine to the text made of the marker,
    a ':' and a payload (neither marker nor payload holding a ':').  If two
    spends of that coin are accepted and the shares they disclosed differ at
    some index, the detector run on the two transcripts reports the buyer,
    with that payload as identity. *)
Theorem double_spend_identifies_buyer
    (coin : Coin.t) (bits1 bits2 : nat -> bool) (t1 t2 : list event)
    (ris1 ris2 : list string) (guid payload : string) :
  acceptCoin coin bits1 = (t1, Return ris1) ->
  acceptCoin coin bits2 = (t2, Return ris2) ->
  Js.occurrences ":" IDENT_STR = 0 ->
  Js.occurrences ":" payload = 0 ->
  (forall i a b, i < COIN_RIS_LENGTH -> a <> b ->
     Js.Buffer_toString
       (xorBuffers (Js.hexDecode (Coin.getRis coin a i))
                   (Js.hexDecode (Coin.getRis coin b i)))
     = (IDENT_STR ++ ":" ++ payload)%string) ->
  (exists i, i < COIN_RIS_LENGTH /\
     Coin.getRis coin (bits1 i) i <> Coin.getRis coin (bits2 i) i) ->
  determineCheater guid ris1 ris2
  = ([Log (analyzing_line guid); Log (buyer_line (Some payload))], Return tt).
Proof.
  intros H1 H2 Hid Hpay Hxor (k & Hk & Hdiff).
  destruct (acceptCoin_accepted coin bits1 t1 ris1 H1)
    as (_ & _ & _ & _ & _ & _ & ->).
  destruct (acceptCoin_accepted coin bits2 t2 ris2 H2)
    as (_ & _ & _ & _ & _ & _ & ->).
  rewrite determineCheater_scan.
  rewrite (scan_two_spends coin bits1 bits2 _ _ payload COIN_RIS_LENGTH Hid Hpay 0).
  - reflexivity.
  - intros j Hj. rewrite !nth_error_map, !nth_error_seq.
    destruct (Nat.ltb_spec j COIN_RIS_LENGTH); [now split | lia].
  - intros j a b Hj. apply Hxor. lia.
  - exists k. split; [lia | exact Hdiff].
Qed.

(** *** The script *)

Lemma acceptCoin_silent coin bits line :
  ~ In (Log line) (fst (acceptCoin coin bits)).
Proof.
  unfold acceptCoin, bind, call, emit, lift.
  destruct (verify _ _ _ _); cbn [negb app].
  - destruct (parseCoin _) as [[lh rh]|err].
    + pose proof (gatherRis_silent coin bits lh rh COIN_RIS_LENGTH line 0 []) as Hs.
      destruct (gatherRis _ _ _ _ _ _ _) as [t r]. simpl in *.
      intros [H|[H|H]]; [discriminate | discriminate | tauto].
    + simpl. intros [H|[H|[]]]; discriminate.
  - simpl. intros [H|[]]. discriminate.
Qed.

(** X13. When both spends are accepted the script runs to its end and
    prints four lines: the analyzing line and a verdict for the two
    transcripts, then the analyzing line and, always, the verdict that the
    transcripts are identical for the first transcript against itself. *)
Theorem main_completes
    (coin : Coin.t) (bits1 bits2 : nat -> bool) (t1 t2 : list event)
    (ris1 ris2 : list string) :
  acceptCoin coin bits1 = (t1, Return ris1) ->
  acceptCoin coin bits2 = (t2, Return ris2) ->
  exists line,
    main coin bits1 bits2
    = (t1 ++ t2 ++ [Log (analyzing_line (Coin.guid coin)); Log line;
                    Log (analyzing_line (Coin.guid coin)); Log identical_line],
       Return tt) /\
    is_verdict line.
Proof.
  intros H1 H2.
  assert (L1 : length ris1 = COIN_RIS_LENGTH).
  { destruct (acceptCoin_accepted coin bits1 t1 ris1 H1)
      as (_ & _ & _ & _ & _ & _ & ->). now rewrite length_map, length_seq. }
  assert (L2 : length ris2 = COIN_RIS_LENGTH).
  { destruct (acceptCoin_accepted coin bits2 t2 ris2 H2)
      as (_ & _ & _ & _ & _ & _ & ->). now rewrite length_map, length_seq. }
  destruct (scan_total ris1 ris2 COIN_RIS_LENGTH 0) as (line & E & Hv);
    [simpl; lia | simpl; lia |].
  exists line. split; [|exact Hv].
  unfold main. rewrite H1. cbn [bind]. rewrite H2. cbn [bind].
  rewrite !determineCheater_scan, E.
  rewrite (scan_agree ris1 ris1 COIN_RIS_LENGTH 0) by reflexivity.
  reflexivity.
Qed.

(** X14. When a spend is rejected the script stops with the exception of
    that spend, and nothing was printed: the detector never runs on a spend
    that did not complete. *)
Theorem main_aborts
    (coin : Coin.t) (bits1 bits2 : nat -> bool) (e : exn) :
  snd (acceptCoin coin bits1) = Throw e \/
  (snd (acceptCoin coin bits2) = Throw e /\
   exists ris1, snd (acceptCoin coin bits1) = Return ris1) ->
  snd (main coin bits1 bits2) = Throw e /\
  forall line, ~ In (Log line) (fst (main coin bits1 bits2)).
Proof.
  intros H.
  pose proof (acceptCoin_silent coin bits1) as S1.
  pose proof (acceptCoin_silent coin bits2) as S2.
  unfold main, bind.
  destruct (acceptCoin coin bits1) as [t1 [ris1|e1]]; simpl in *.
  - destruct H as [H|[H _]]; [discriminate|].
    destruct (acceptCoin coin bits2) as [t2 [ris2|e2]]; simpl in *;
      [discriminate|].
    injection H as ->. split; [reflexivity|].
    intros line Hin. apply in_app_or in Hin.
    destruct Hin; [exact (S1 line H) | exact (S2 line H)].
  - destruct H as [H|[_ [ris1 H]]]; [|discriminate].
    injection H as ->. split; [reflexivity | exact S1].
Qed.

End Merchant.

(** ** The properties at concrete inputs *)

Lemma parseCoin_wrong_issuer_witness :
  nth_error (Js.split "-" "COIN-20-g1-aa-bb") 0 = Some "COIN" /\
  "COIN" <> "BANK" /\
  parseCoin "BANK" "COIN-20-g1-aa-bb" =
    Throw (Error "Invalid identity string: COIN received, but BANK expected").
Proof.
  split; [reflexivity|]. split; [discriminate|].
  apply (parseCoin_wrong_issuer "BANK" "COIN-20-g1-aa-bb" "COIN");
    [reflexivity | discriminate].
Defined.

(** C5, as stated, fails: a string whose hash lists have two and one entries
    is decoded without any error. *)
Lemma parseCoin_accepts_wrong_lengths :
  exists lh rh,
    parseCoin "BANK" "BANK-20-g1-aa,bb-cc" = Return (lh, rh) /\
    length lh = 2 /\ length rh = 1.
Proof.
  exists ["aa"; "bb"], ["cc"]. repeat split.
Qed.

Lemma parseCoin_checks_tag_only_witness :
  nth_error (Js.split "-" "BANK-20-g1-aa,bb-cc") 0 = Some "BANK" /\
  parseCoin "BANK" "BANK-20-g1-aa,bb-cc" = Return (["aa"; "bb"], ["cc"]).
Proof.
  split; [reflexivity|].
  apply (parseCoin_checks_tag_only "BANK" "BANK-20-g1-aa,bb-cc" "aa,bb" "cc");
    reflexivity.
Defined.

(** C10, as stated, fails: a string of two fields whose first field is not
    the bank tag gets the wrong-issuer error, not the TypeError. *)
Lemma parseCoin_few_fields_wrong_tag :
  length (Js.split "-" "COIN-20") < 5 /\
  parseCoin "BANK" "COIN-20" =
    Throw (Error "Invalid identity string: COIN received, but BANK expected") /\
  parseCoin "BANK" "COIN-20" <> Throw TypeError.
Proof.
  split; [simpl; lia|]. split; [reflexivity | discriminate].
Qed.

Lemma parseCoin_too_few_fields_witness :
  length (Js.split "-" "BANK-20-g1-aa,bb") < 5 /\
  parseCoin "BANK" "BANK-20-g1-aa,bb" = Throw TypeError.
Proof.
  split; [simpl; lia|].
  apply (proj2 (parseCoin_too_few_fields "BANK" "BANK-20-g1-aa,bb"));
    [simpl; lia | reflexivity].
Defined.

Lemma parseCoin_encode_roundtrip_witness :
  valid_coin 2 example_data /\
  exists s, Codec.encode "BANK" example_data = Some s /\
            parseCoin "BANK" s
            = Return (Codec.hashLeft example_data, Codec.hashRight example_data).
Proof.
  assert (Hvalid : valid_coin 2 example_data).
  { unfold valid_coin. repeat split; try reflexivity; hex_strings. }
  split; [exact Hvalid|].
  apply (parseCoin_encode_roundtrip 2 "BANK" example_data);
    [reflexivity | lia | exact Hvalid].
Defined.

Lemma acceptCoin_invalid_signature_witness :
  acceptCoin 2 "BANK" example_hash example_verify unsigned_coin example_bits
  = ([Verify false], Throw (Error "Invalid signature!")).
Proof.
  apply (proj2 (acceptCoin_invalid_signature 2 "BANK" example_hash example_verify
                  unsigned_coin example_bits)).
  reflexivity.
Defined.

Lemma acceptCoin_atomic_witness :
  exists k, k <= 1 /\
    acceptCoin 2 "BANK" example_hash example_verify forged_coin example_bits
    = (Verify true :: ParseCoin example_string :: challenges example_bits 0 (S k),
       Throw (Error "RIS hash mismatch – Coin may be forged!")).
Proof.
  apply (proj1 (acceptCoin_atomic 2 "BANK" example_hash example_verify
                  forged_coin example_bits)
           (map example_hash example_left) (map example_hash example_right) 1).
  - reflexivity.
  - reflexivity.
  - lia.
  - simpl. discriminate.
Defined.

Lemma acceptCoin_well_formed_witness :
  exists ris,
    acceptCoin 2 "BANK" example_hash example_verify example_coin example_bits
    = (Verify true :: ParseCoin example_string :: challenges example_bits 0 2,
       Return ris) /\
    length ris = 2 /\
    forall i, i < 2 ->
      nth_error ris i = Some (Coin.getRis example_coin (example_bits i) i).
Proof.
  apply (acceptCoin_well_formed 2 "BANK" example_hash example_verify
           example_coin example_bits
           (map example_hash example_left) (map example_hash example_right)).
  - reflexivity.
  - reflexivity.
  - intros i Hi. destruct i as [|[|i]]; [split; reflexivity | split; reflexivity | lia].
Defined.

(** C1, as stated, fails twice.  A recovered text that starts with the marker
    but has no ':' after it is reported as the buyer cheating; and of a
    payload that holds a ':' only the part before it is reported. *)
Lemma determineCheater_marker_only :
  Js.Buffer_toString (xorBuffers_spec (Js.hexDecode "4944454e54495459")
                                      (Js.hexDecode "0000000000000000"))
  = "IDENTITY" /\
  Js.startsWith "IDENTITY" "IDENT:" = false /\
  determineCheater 2 "IDENT" xorBuffers_spec "g1" lookalike_1 lookalike_2
  = ([Log "Analyzing coin g1 for double-spending...";
      Log "Double-spending detected! The cheater is the buyer: undefined"],
     Return tt) /\
  Js.Buffer_toString (xorBuffers_spec (Js.hexDecode "4944454e543a613a62")
                                      (Js.hexDecode "000000000000000000"))
  = "IDENT:a:b" /\
  determineCheater 2 "IDENT" xorBuffers_spec "g1" colon_1 colon_2
  = ([Log "Analyzing coin g1 for double-spending...";
      Log "Double-spending detected! The cheater is the buyer: a"],
     Return tt).
Proof.
  repeat split.
Qed.

Lemma determineCheater_first_difference_witness :
  exists trueId,
    determineCheater 2 "IDENT" xorBuffers_spec "g1" example_left example_mixed
    = ([Log "Analyzing coin g1 for double-spending..."; Log (buyer_line trueId)],
       Return tt) /\
    trueId = Some "al".
Proof.
  destruct (determineCheater_first_difference 2 "IDENT" xorBuffers_spec "g1"
              example_left example_mixed 1 "1111111111111111" "5855545f452b707d")
    as [Hbuyer _].
  - lia.
  - intros j Hj. destruct j as [|j]; [reflexivity | lia].
  - reflexivity.
  - reflexivity.
  - discriminate.
  - destruct (Hbuyer eq_refl) as (trueId & E & Hpayload).
    exists trueId. split; [exact E|].
    apply (Hpayload "al"); reflexivity.
Defined.

Lemma determineCheater_identical_witness :
  determineCheater 2 "IDENT" xorBuffers_spec "g1" example_left example_left
  = ([Log "Analyzing coin g1 for double-spending...";
      Log "Both RIS strings are identical. The merchant is trying to cheat."],
     Return tt)
  /\ forall trueId,
       ~ In (Log (buyer_line trueId))
            (fst (determineCheater 2 "IDENT" xorBuffers_spec "g1"
                    example_left example_left)).
Proof.
  apply (determineCheater_identical 2 "IDENT" xorBuffers_spec "g1"
           example_left example_left).
  intros i Hi. reflexivity.
Defined.

(** C6, as stated, fails: transcripts of two and of three entries, under a
    guid that is not the coin's, are compared without any error. *)
Lemma determineCheater_accepts_mismatched_input :
  length example_left <> length example_longer /\
  Coin.guid example_coin <> "g2" /\
  determineCheater 2 "IDENT" xorBuffers_spec "g2" example_left example_longer
  = ([Log "Analyzing coin g2 for double-spending...";
      Log "Both RIS strings are identical. The merchant is trying to cheat."],
     Return tt).
Proof.
  repeat split; discriminate.
Qed.

Lemma determineCheater_no_input_check_witness :
  exists t r,
    determineCheater 2 "IDENT" xorBuffers_spec "g1" example_left example_left
    = (Log (analyzing_line "g1") :: t, r) /\
    determineCheater 2 "IDENT" xorBuffers_spec "g2" example_left example_longer
    = (Log (analyzing_line "g2") :: t, r).
Proof.
  apply (determineCheater_no_input_check 2 "IDENT" xorBuffers_spec "g1" "g2"
           example_left example_left example_left example_longer).
  - intros i Hi. reflexivity.
  - intros i Hi. destruct i as [|[|i]]; [reflexivity | reflexivity | lia].
Defined.

(** Two spends of the example coin under different random bits, and the
    detector on their transcripts: the buyer "al" is found. *)
Example double_spend_detected :
  exists ris1 ris2,
    snd (acceptCoin 2 "BANK" example_hash example_verify example_coin (fun _ => true))
    = Return ris1 /\
    snd (acceptCoin 2 "BANK" example_hash example_verify example_coin example_bits)
    = Return ris2 /\
    determineCheater 2 "IDENT" xorBuffers_spec (Coin.guid example_coin) ris1 ris2
    = ([Log "Analyzing coin g1 for double-spending...";
        Log "Double-spending detected! The cheater is the buyer: al"],
       Return tt).
Proof.
  exists example_left, example_mixed. repeat split.
Qed.


(** ** The further properties at concrete inputs *)

Lemma xorBuffers_spec_comm (a b : Js.Buffer) :
  xorBuffers_spec a b = xorBuffers_spec b a.
Proof.
  revert b. induction a as [|x a IH]; intros [|y b]; simpl; try reflexivity.
  now rewrite N.lxor_comm, IH.
Qed.

Lemma parseCoin_lists_clean_witness :
  ["aa"; "bb"] <> [] /\ ["cc"] <> [] /\
  Forall (fun h => Js.occurrences "," h = 0 /\ Js.occurrences "-" h = 0)
         (["aa"; "bb"] ++ ["cc"]).
Proof.
  apply (parseCoin_lists_clean "BANK" "BANK-20-g1-aa,bb-cc" ["aa"; "bb"] ["cc"]).
  reflexivity.
Defined.

Lemma parseCoin_rejoin_witness :
  nth_error (Js.split "-" "BANK-20-g1-aa,bb-cc") 3 = Some (Js.join "," ["aa"; "bb"]) /\
  nth_error (Js.split "-" "BANK-20-g1-aa,bb-cc") 4 = Some (Js.join "," ["cc"]).
Proof.
  apply (parseCoin_rejoin "BANK" "BANK-20-g1-aa,bb-cc" ["aa"; "bb"] ["cc"]).
  reflexivity.
Defined.

Lemma parseCoin_ignores_suffix_witness :
  parseCoin "BANK" ("BANK-20-g1-aa,bb-cc" ++ "-" ++ "dd-ee")
  = parseCoin "BANK" "BANK-20-g1-aa,bb-cc".
Proof.
  apply (parseCoin_ignores_suffix "BANK" "BANK-20-g1-aa,bb-cc" "dd-ee").
  simpl. lia.
Defined.

Lemma acceptCoin_parse_error_witness :
  acceptCoin 2 "BANK" example_hash example_verify foreign_coin example_bits
  = ([Verify true; ParseCoin (Coin.toString foreign_coin)],
     Throw (Error "Invalid identity string: COIN received, but BANK expected")).
Proof.
  apply (acceptCoin_parse_error 2 "BANK" example_hash example_verify
           foreign_coin example_bits); reflexivity.
Defined.

Lemma acceptCoin_accepted_checked_witness :
  exists lh rh,
    parseCoin "BANK" (Coin.toString example_coin) = Return (lh, rh) /\
    Verify true :: ParseCoin example_string :: challenges example_bits 0 2
    = Verify true :: ParseCoin (Coin.toString example_coin)
        :: challenges example_bits 0 2 /\
    forall i, i < 2 ->
      nth_error example_mixed i = Some (Coin.getRis example_coin (example_bits i) i) /\
      Some (example_hash (Coin.getRis example_coin (example_bits i) i))
      = (if example_bits i then nth_error lh i else nth_error rh i).
Proof.
  apply (acceptCoin_accepted_checked 2 "BANK" example_hash example_verify
           example_coin example_bits).
  reflexivity.
Defined.


Lemma acceptCoin_short_lists_witness :
  exists k, k <= 1 /\
    acceptCoin 2 "BANK" example_hash example_verify short_coin left_bits
    = (Verify true :: ParseCoin (Coin.toString short_coin)
         :: challenges left_bits 0 (S k),
       Throw (Error "RIS hash mismatch – Coin may be forged!")).
Proof.
  apply (acceptCoin_short_lists 2 "BANK" example_hash example_verify
           short_coin left_bits ["5a0102030405060708"] ["5a4846464a513c6664"]).
  - reflexivity.
  - reflexivity.
  - simpl. lia.
  - simpl. lia.
Defined.

Lemma determineCheater_total_witness :
  exists line,
    determineCheater 2 "IDENT" xorBuffers_spec "g1" example_left example_right
    = ([Log (analyzing_line "g1"); Log line], Return tt) /\
    is_verdict line.
Proof.
  apply (determineCheater_total 2 "IDENT" xorBuffers_spec "g1"
           example_left example_right); simpl; lia.
Defined.

Lemma determineCheater_missing_entry_witness :
  determineCheater 2 "IDENT" xorBuffers_spec "g1" example_left example_short
  = ([Log (analyzing_line "g1")], Throw TypeError).
Proof.
  apply (determineCheater_missing_entry 2 "IDENT" xorBuffers_spec "g1"
           example_left example_short 1).
  - lia.
  - intros j Hj. destruct j as [|j]; [reflexivity | lia].
  - discriminate.
  - right. reflexivity.
Defined.

Lemma determineCheater_sym_witness :
  determineCheater 2 "IDENT" xorBuffers_spec "g1" example_left example_right
  = determineCheater 2 "IDENT" xorBuffers_spec "g1" example_right example_left.
Proof.
  apply (determineCheater_sym 2 "IDENT" xorBuffers_spec "g1"
           example_left example_right).
  exact xorBuffers_spec_comm.
Defined.

Lemma double_spend_identifies_buyer_witness :
  determineCheater 2 "IDENT" xorBuffers_spec "g1" example_left example_mixed
  = ([Log (analyzing_line "g1"); Log (buyer_line (Some "al"))], Return tt).
Proof.
  apply (double_spend_identifies_buyer 2 "IDENT" "BANK" example_hash
           xorBuffers_spec example_verify example_coin left_bits example_bits
           (Verify true :: ParseCoin example_string :: challenges left_bits 0 2)
           (Verify true :: ParseCoin example_string :: challenges example_bits 0 2)
           example_left example_mixed "g1" "al").
  - reflexivity.
  - reflexivity.
  - reflexivity.
  - reflexivity.
  - intros i a b Hi Hab.
    destruct i as [|[|i]]; [| |lia];
      destruct a, b; try reflexivity; contradiction.
  - exists 1. split; [lia | discriminate].
Defined.

Lemma main_completes_witness :
  exists line,
    main 2 "IDENT" "BANK" example_hash xorBuffers_spec example_verify
         example_coin left_bits example_bits
    = ((Verify true :: ParseCoin example_string :: challenges left_bits 0 2)
       ++ (Verify true :: ParseCoin example_string :: challenges example_bits 0 2)
       ++ [Log (analyzing_line (Coin.guid example_coin)); Log line;
           Log (analyzing_line (Coin.guid example_coin)); Log identical_line],
       Return tt) /\
    is_verdict line.
Proof.
  apply (main_completes 2 "IDENT" "BANK" example_hash xorBuffers_spec
           example_verify example_coin left_bits example_bits
           (Verify true :: ParseCoin example_string :: challenges left_bits 0 2)
           (Verify true :: ParseCoin example_string :: challenges example_bits 0 2)
           example_left example_mixed); reflexivity.
Defined.

Lemma main_aborts_witness :
  snd (main 2 "IDENT" "BANK" example_hash xorBuffers_spec example_verify
            forged_coin left_bits example_bits)
  = Throw (Error "RIS hash mismatch – Coin may be forged!") /\
  forall line,
    ~ In (Log line)
         (fst (main 2 "IDENT" "BANK" example_hash xorBuffers_spec example_verify
                    forged_coin left_bits example_bits)).
Proof.
  apply (main_aborts 2 "IDENT" "BANK" example_hash xorBuffers_spec example_verify
           forged_coin left_bits example_bits).
  right. split; [reflexivity | exists example_left; reflexivity].
Defined.

Lemma determineCheater_identical_only_witness :
  nth_error example_left 1 = nth_error example_longer 1.
Proof.
  apply (determineCheater_identical_only 2 "IDENT" xorBuffers_spec "g1"
           example_left example_longer); [|lia].
  simpl. right. left. reflexivity.
Defined.

Lemma parseCoin_returns_iff_witness :
  exists lh rh, parseCoin "BANK" "BANK-20-g1-aa,bb-cc" = Return (lh, rh).
Proof.
  apply (proj2 (parseCoin_returns_iff "BANK" "BANK-20-g1-aa,bb-cc")).
  split; [reflexivity | simpl; lia].
Defined.
